(** * A shallow embedding of the Magento GraphQL gateway

    Three source files are covered:
    - [src/extensions/legacy-proxy/apollo-fetcher.ts]: the fetcher that
      forwards an operation to the monolith (module [ApolloFetcher]);
    - the catalog extension with its [productByID] resolver
      (module [Catalog]);
    - the entry point [main], composing the schema sources and deriving
      the per-request context (module [Gateway]).

    JavaScript objects used as dictionaries are finite maps from property
    names to values, a value of type [string | undefined] is a [JSValue],
    and an [async] function returns a [Completion]: either the value the
    promise resolves with, or the error it rejects with. *)

From Stdlib Require Import String Ascii DecimalString.
From stdpp Require Import gmap strings list fin_maps.

Local Open Scope string_scope.

(** ** JavaScript values, errors and completions *)

(** A value of TypeScript type [string | undefined]. *)
Inductive JSValue : Type :=
  | JSUndefined
  | JSString (s : string).

#[global] Instance JSValue_eq_dec : EqDecision JSValue.
Proof. solve_decision. Defined.

(** String conversion as performed by a template literal [`${v}`]. *)
Definition toString (v : JSValue) : string :=
  match v with
  | JSUndefined => "undefined"
  | JSString s => s
  end.

(** The errors that the modelled code constructs or lets through. *)
Inductive JSError : Type :=
  | Error (message : string)
  | TypeError (message : string)
  | AssertionError (message : string)
  | ServiceError (code : nat) (details : string).

#[global] Instance JSError_eq_dec : EqDecision JSError.
Proof. solve_decision. Defined.

(** The outcome of awaiting a promise. *)
Inductive Completion (A : Type) : Type :=
  | Return (a : A)
  | Throw (e : JSError).

Arguments Return {A} a.
Arguments Throw {A} e.

Definition bind {A B : Type} (c : Completion A) (k : A → Completion B)
  : Completion B :=
  match c with
  | Return a => k a
  | Throw e => Throw e
  end.

Notation "'let*' x := c 'in' k" := (bind c (λ x, k))
  (at level 10, x name, c at level 100, k at level 200, only parsing).

(** Property access [obj.key] on a dictionary: a missing key reads as
    [undefined]. *)
Definition getProp (obj : gmap string JSValue) (key : string) : JSValue :=
  default JSUndefined (obj !! key).

(** [Object.assign(target, source)]: the properties of [source] are
    written over those of [target]. *)
Definition Object_assign (target source : gmap string JSValue)
  : gmap string JSValue :=
  source ∪ target.

(** The per-request context ([GraphQLContext] of [types.ts]); its three
    fields are those the [context] callback of [main] fills in. *)
Record GraphQLContext : Type := {
  legacyToken : JSValue;
  currency : JSValue;
  store : JSValue;
}.

(** ** The monolith fetcher ([apollo-fetcher.ts]) *)

Module ApolloFetcher.

(** [filterUndefinedEntries]: a new object without the entries whose
    value is [undefined]. *)
Definition filterUndefinedEntries (obj : gmap string JSValue)
  : gmap string JSValue :=
  list_to_map (filter (λ o, o.2 ≠ JSUndefined) (map_to_list obj)).

(** The value of [opts.context] when it is set: graphql-tools stores the
    resolver context under [graphqlContext]. *)
Record LinkContext : Type := {
  graphqlContext : GraphQLContext;
}.

Section Fetcher.

(** Parsed documents, variable bindings and the HTTP response belong
    to [graphql], [graphql-tools] and [node-fetch]. *)
Variables DocumentNode Variables Response Json : Type.
Variable print : DocumentNode → string.

(** [IFetcherOperation] of graphql-tools. *)
Record IFetcherOperation : Type := {
  query : DocumentNode;
  variables : option Variables;
  operationName : option string;
  context : option LinkContext;
}.

(** The object handed to [JSON.stringify]. *)
Record Payload : Type := {
  payload_query : string;
  payload_variables : option Variables;
  payload_operationName : option string;
}.

Variable JSON_stringify : Payload → string.

(** The second argument of [fetch]. *)
Record RequestInit : Type := {
  method : string;
  headers : gmap string JSValue;
  body : string;
}.

Variable fetch : string → RequestInit → Completion Response.
Variable json : Response → Completion Json.

(** Lines 19-32: the headers object after the conditional
    [Object.assign]. *)
Definition requestHeaders (opts : IFetcherOperation)
  : gmap string JSValue :=
  let headers : gmap string JSValue :=
    {[ "Content-Type" := JSString "application/json" ]} in
  match context opts with
  | Some c =>
      let context := graphqlContext c in
      Object_assign headers
        (filterUndefinedEntries
           (<[ "Authorization" :=
                 JSString ("Bearer " +:+ toString (legacyToken context)) ]>
            (<[ "Content-Currency" := currency context ]>
             (<[ "Store" := store context ]> ∅))))
  | None => headers
  end.

(** Lines 34-42: the arguments of the call to [fetch]. *)
Definition outboundRequest (monolithGraphQLUrl : string)
    (opts : IFetcherOperation) : string * RequestInit :=
  (monolithGraphQLUrl,
   {| method := "POST";
      headers := requestHeaders opts;
      body := JSON_stringify
                {| payload_query := print (query opts);
                   payload_variables := variables opts;
                   payload_operationName := operationName opts |} |}).

(** [createMonolithApolloFetcher]: the fetcher sends the request and
    decodes the answer. *)
Definition createMonolithApolloFetcher (monolithGraphQLUrl : string)
    (opts : IFetcherOperation) : Completion Json :=
  let '(url, init) := outboundRequest monolithGraphQLUrl opts in
  let* result := fetch url init in
  json result.

End Fetcher.

Arguments context {DocumentNode Variables} _.
Arguments requestHeaders {DocumentNode Variables} opts.
Arguments outboundRequest {DocumentNode Variables} print JSON_stringify
  monolithGraphQLUrl opts.

End ApolloFetcher.

(** ** The catalog extension ([productByID]) *)

Module Catalog.

(** The generated protobuf messages of the catalog service. A fresh
    [ProductsGetRequest] has an empty identifier list and an empty
    store. *)
Record ProductsGetRequest : Type := {
  getIdsList : list string;
  getStore : string;
}.

Definition new_ProductsGetRequest : ProductsGetRequest :=
  {| getIdsList := []; getStore := EmptyString |}.

Definition setIdsList (value : list string) (msg : ProductsGetRequest)
  : ProductsGetRequest :=
  {| getIdsList := value; getStore := getStore msg |}.

Definition setStore (value : string) (msg : ProductsGetRequest)
  : ProductsGetRequest :=
  {| getIdsList := getIdsList msg; getStore := value |}.

Record Product : Type := {
  getSku : string;
  getName : string;
}.

Record ProductsGetResult : Type := {
  getItemsList : list Product;
}.

(** The GraphQL type [CatalogServiceProduct]. *)
Record CatalogServiceProduct : Type := {
  id : string;
  name : string;
}.

(** Node's [assert(value, message)] on a value that is an object or
    [undefined]. *)
Definition assert {A : Type} (value : option A) (message : string)
  : Completion A :=
  match value with
  | Some a => Return a
  | None => Throw (AssertionError message)
  end.

(** The fault V8 raises for [product.getSku()] when [product] is
    [undefined]. *)
Definition getSku_of_undefined : JSError :=
  TypeError "Cannot read property 'getSku' of undefined".

Section Resolver.

(** The promisified [client.getProducts]: it rejects with the error
    of the call, or resolves with the response, if there is one. *)
Variable getProducts :
  ProductsGetRequest → Completion (option ProductsGetResult).

(** Lines 35-37: the message the resolver builds. *)
Definition lookupMessage (args_id : string) : ProductsGetRequest :=
  let msg := new_ProductsGetRequest in
  let msg := setIdsList [args_id] msg in
  let msg := setStore "default" msg in
  msg.

(** [Query.productByID]. The first component lists the messages sent
    to the catalog backend, the second is what the resolver's promise
    settles with. *)
Definition productByID (args_id : string)
  : list ProductsGetRequest * Completion CatalogServiceProduct :=
  let msg := lookupMessage args_id in
  ([msg],
   let* res := getProducts msg in
   let* res := assert res
                 "Did not receive a response from Catalog gRPC API" in
   match getItemsList res with
   | product :: _ =>
       Return {| id := getSku product; name := getName product |}
   | [] => Throw getSku_of_undefined
   end).

End Resolver.

End Catalog.

(** ** The entry point ([main]) *)

Module Gateway.

(** The double quote character, as it occurs in an error message. *)
Definition dquote : string := String (ascii_of_nat 34) EmptyString.

(** [haystack.includes(needle)]. *)
Definition includes (haystack needle : string) : Prop :=
  ∃ before after : string, haystack = before +:+ needle +:+ after.

(** The request object fastify hands to the [context] callback. *)
Record FastifyRequest : Type := {
  headers : gmap string JSValue;
}.

(** Lines 61-65: the [context] callback given to [fastifyGQL]. *)
Definition context (req : FastifyRequest) : GraphQLContext :=
  {| legacyToken := getProp (headers req) "authorization";
     currency := getProp (headers req) "Content-Currency";
     store := getProp (headers req) "Store" |}.

(** How the process ends up: serving a schema at an address, or exited
    with a code after [console.error] printed an error. *)
Inductive Outcome (Schema : Type) : Type :=
  | Listening (schema : Schema) (address : string)
  | Exited (code : nat) (printed : JSError).

Arguments Listening {Schema} schema address.
Arguments Exited {Schema} code printed.

Section Composition.

(** An executable schema is read as the finite map from its fields,
    named by type and field name, to what resolves them. The raw
    schema is what introspection returns. *)
Variables Resolver RawSchema : Type.

(** What lies outside of [main]: the process environment read through
    [hasVar] and [readVar], package discovery, the Adobe I/O schemas,
    introspection of the monolith through a fetcher bound to a URL,
    the pass-through schema built from the introspection result,
    [mergeSchemas] of graphql-tools, and the HTTP listener with the
    address it binds to, if that is a network address. *)
Record World : Type := {
  env : gmap string string;
  asArray : string → list string;
  mergeSchemas :
    list (gmap (string * string) Resolver) → gmap (string * string) Resolver;
  collectLocalExtensions : Completion (gmap (string * string) Resolver);
  prepareRemoteExtensionSchemas :
    list string → Completion (gmap (string * string) Resolver);
  introspectSchema : string → Completion RawSchema;
  makeRemoteExecutableSchema :
    RawSchema → string → gmap (string * string) Resolver;
  listen :
    gmap (string * string) Resolver → option string
    → Completion (option string);
}.

(** [mergeSchemas] of graphql-tools 4, which [main] imports and which
    is not among the sources, as that library merges executable
    schemas. [Query], [Mutation] and [Subscription] are merged field by
    field, a field resolving by delegation to the schema that gave it
    last. Any other type is taken whole from the last schema that has
    it, and its fields get the library's default resolver, which reads
    the value out of what the enclosing root field returned. *)
Definition isRootType (name : string) : bool :=
  bool_decide (name ∈ ["Query"; "Mutation"; "Subscription"]).

Definition definesType (schema : gmap (string * string) Resolver)
    (name : string) : Prop :=
  map_Exists (λ field _, field.1 = name) schema.

Definition mergeInto (defaultMergedResolver : Resolver)
    (merged schema : gmap (string * string) Resolver)
  : gmap (string * string) Resolver :=
  map_imap
    (λ field resolver,
       Some (if isRootType field.1 then resolver else defaultMergedResolver))
    schema
  ∪ filter
      (λ entry, isRootType entry.1.1 = true ∨ ¬ definesType schema entry.1.1)
      merged.

Definition graphqlToolsMerge (defaultMergedResolver : Resolver)
    (schemas : list (gmap (string * string) Resolver))
  : gmap (string * string) Resolver :=
  foldl (mergeInto defaultMergedResolver) ∅ schemas.

Variable w : World.

(** The message of the error thrown when introspection fails. *)
Definition introspectionFailure (legacyURL : string) : string :=
  (("Failed introspecting remote Magento schema at " +:+ dquote
      +:+ legacyURL +:+ dquote +:+ ". ")
   +:+ "Make sure that the LEGACY_GRAPHQL_URL variable has the ")
  +:+ "correct value for your Magento instance".

(** [prepareFallbackSchema]: whatever introspection throws is
    replaced by a new [Error]. The fetcher made by
    [createMonolithFetcher] stands for the URL it is bound to. *)
Definition prepareFallbackSchema (legacyURL : string)
  : Completion (gmap (string * string) Resolver) :=
  let fetcher := legacyURL in
  match introspectSchema w fetcher with
  | Throw err => Throw (Error (introspectionFailure legacyURL))
  | Return rawMonolithSchema =>
      Return (makeRemoteExecutableSchema w rawMonolithSchema fetcher)
  end.

(** Lines 24-48 of [main]: the list of schemas, in the order they are
    pushed. [hasVar] followed by [readVar] is the lookup in [env]. *)
Definition collectSchemas
  : Completion (list (gmap (string * string) Resolver)) :=
  let* localExtensions := collectLocalExtensions w in
  let schemas := [localExtensions] in
  let* schemas :=
    match env w !! "IO_PACKAGES" with
    | Some value =>
        let packages := asArray w value in
        let* remote := prepareRemoteExtensionSchemas w packages in
        Return (schemas ++ [remote])%list
    | None => Return schemas
    end in
  let* schemas :=
    match env w !! "LEGACY_GRAPHQL_URL" with
    | Some value =>
        let* legacy := prepareFallbackSchema value in
        Return (schemas ++ [legacy])%list
    | None => Return schemas
    end in
  Return schemas.

(** Lines 50-57: the schema registered with [fastifyGQL]. *)
Definition composedSchema
  : Completion (gmap (string * string) Resolver) :=
  let* schemas := collectSchemas in
  Return (mergeSchemas w schemas).

(** [main]: compose, listen, and require a network address. *)
Definition main
  : Completion (gmap (string * string) Resolver * string) :=
  let* schema := composedSchema in
  let* netAddress := listen w schema (env w !! "PORT") in
  match netAddress with
  | Some address => Return (schema, "http://" +:+ address)
  | None => Throw (AssertionError "Unexpected binding to pipe/socket")
  end.

(** Lines 166-169: [main().catch(...)] prints the error and exits
    with code 1. *)
Definition start : Outcome (gmap (string * string) Resolver) :=
  match main with
  | Return (schema, address) => Listening schema address
  | Throw err => Exited 1 err
  end.

End Composition.

Arguments mergeSchemas {Resolver RawSchema} _ _.
Arguments definesType {Resolver} schema name.
Arguments mergeInto {Resolver} defaultMergedResolver merged schema.
Arguments graphqlToolsMerge {Resolver} defaultMergedResolver schemas.
Arguments env {Resolver RawSchema} _.
Arguments asArray {Resolver RawSchema} _ _.
Arguments collectLocalExtensions {Resolver RawSchema} _.
Arguments prepareRemoteExtensionSchemas {Resolver RawSchema} _ _.
Arguments introspectSchema {Resolver RawSchema} _ _.
Arguments makeRemoteExecutableSchema {Resolver RawSchema} _ _ _.
Arguments listen {Resolver RawSchema} _ _ _.
Arguments prepareFallbackSchema {Resolver RawSchema} w legacyURL.
Arguments collectSchemas {Resolver RawSchema} w.
Arguments composedSchema {Resolver RawSchema} w.
Arguments main {Resolver RawSchema} w.
Arguments start {Resolver RawSchema} w.

End Gateway.

(** ** What the gateway prints while it starts *)

Module Startup.

Definition newline : string := String (ascii_of_nat 10) EmptyString.

(** [items.join(separator)] on an array of strings. *)
Fixpoint join (separator : string) (items : list string) : string :=
  match items with
  | [] => EmptyString
  | item :: rest =>
      match rest with
      | [] => item
      | _ :: _ => item +:+ separator +:+ join separator rest
      end
  end.

(** A length inside a template literal: its decimal digits. *)
Definition Number_toString (n : nat) : string :=
  NilEmpty.string_of_uint (Nat.to_uint n).

(** Lines 89-91 of [collectLocalExtensions]: the line printed for the
    names of the merged local packages. *)
Definition localPackagesLog (mergedNames : list string) : string :=
  let count := length mergedNames in
  let names := join newline (map (λ n, "  - " +:+ n) mergedNames) in
  "Found " +:+ Number_toString count +:+ " local package(s):"
    +:+ newline +:+ names.

Section Remote.

(** A schema fragment as [getAllRemoteGQLSchemas] returns it, with the
    package it comes from. *)
Variable SchemaDef : Type.

Record IOSchemaDef : Type := {
  schemaDef : SchemaDef;
  pkg : string;
}.

(** Lines 105-108 of [prepareRemoteExtensionSchemas]. *)
Definition remotePackagesLog (ioSchemaDefs : list IOSchemaDef) : string :=
  let pkgNames := join newline (map (λ s, "  - " +:+ pkg s) ioSchemaDefs) in
  "Found " +:+ Number_toString (length ioSchemaDefs)
    +:+ " remote I/O GraphQL package(s):" +:+ newline +:+ pkgNames.

End Remote.

Arguments pkg {SchemaDef} _.
Arguments remotePackagesLog {SchemaDef} ioSchemaDefs.

End Startup.

(** ** Header names as Node delivers them *)

Module Node.

(** Node's HTTP parser hands header names to fastify in lower case: a
    name that went through it has no letter between [A] and [Z]. *)
Definition isUpperCase (c : ascii) : bool :=
  Nat.leb 65 (nat_of_ascii c) && Nat.leb (nat_of_ascii c) 90.

Fixpoint lowerCased (name : string) : bool :=
  match name with
  | EmptyString => true
  | String c rest => negb (isUpperCase c) && lowerCased rest
  end.

End Node.

(** ** Concrete inputs used to exercise the statements below *)

Module Samples.

(** An operation whose document is already text, carrying the given
    link context. *)
Definition operation (c : option ApolloFetcher.LinkContext)
  : ApolloFetcher.IFetcherOperation string unit :=
  {| ApolloFetcher.query := "{ storeConfig { id } }";
     ApolloFetcher.variables := None;
     ApolloFetcher.operationName := None;
     ApolloFetcher.context := c |}.

(** A request of a logged-in customer that names neither a currency nor
    a store. *)
Definition tokenOnly : GraphQLContext :=
  {| legacyToken := JSString "abc123";
     currency := JSUndefined;
     store := JSUndefined |}.

(** An anonymous request. *)
Definition anonymous : GraphQLContext :=
  {| legacyToken := JSUndefined;
     currency := JSUndefined;
     store := JSUndefined |}.

(** Catalog backends: one that resolves without a response, one that
    finds nothing, and one that answers with two products. *)
Definition silentBackend (_ : Catalog.ProductsGetRequest)
  : Completion (option Catalog.ProductsGetResult) :=
  Return None.

Definition emptyBackend (_ : Catalog.ProductsGetRequest)
  : Completion (option Catalog.ProductsGetResult) :=
  Return (Some {| Catalog.getItemsList := [] |}).

Definition bag : Catalog.Product :=
  {| Catalog.getSku := "24-MB01"; Catalog.getName := "Joust Duffle Bag" |}.

Definition watch : Catalog.Product :=
  {| Catalog.getSku := "24-WG02"; Catalog.getName := "Didi Sport Watch" |}.

Definition twoItemBackend (_ : Catalog.ProductsGetRequest)
  : Completion (option Catalog.ProductsGetResult) :=
  Return (Some {| Catalog.getItemsList := [bag; watch] |}).

(** A gateway configured with one Adobe I/O package and a monolith.
    Resolvers are named after the source they come from; the raw schema
    of the monolith is the list of its fields. *)
Definition localSchema : gmap (string * string) string :=
  {[ ("Query", "productByID") := "local";
     ("Query", "countries") := "local";
     ("Query", "cart") := "local" ]}.

Definition remoteSchema : gmap (string * string) string :=
  {[ ("Query", "ignoreMe") := "remote";
     ("Query", "countries") := "remote";
     ("Query", "cart") := "remote" ]}.

Definition passThrough (raw : list (string * string)) (url : string)
  : gmap (string * string) string :=
  list_to_map ((λ field, (field, "legacy")) <$> raw).

(** The merge of graphql-tools, its default resolver being named after
    the parent value it reads. *)
Definition libraryMerge (schemas : list (gmap (string * string) string))
  : gmap (string * string) string :=
  Gateway.graphqlToolsMerge "parent" schemas.

Definition gateway
    (introspect : string → Completion (list (string * string)))
  : Gateway.World string (list (string * string)) :=
  {| Gateway.env :=
       {[ "IO_PACKAGES" := "promotions";
          "LEGACY_GRAPHQL_URL" := "http://magento.test/graphql";
          "PORT" := "8008" ]};
     Gateway.asArray := λ value, [value];
     Gateway.mergeSchemas := libraryMerge;
     Gateway.collectLocalExtensions := Return localSchema;
     Gateway.prepareRemoteExtensionSchemas := λ _, Return remoteSchema;
     Gateway.introspectSchema := introspect;
     Gateway.makeRemoteExecutableSchema := passThrough;
     Gateway.listen := λ _ _, Return (Some "127.0.0.1:8008") |}.

Definition monolithFields : list (string * string) :=
  [("Query", "cart"); ("Query", "storeConfig")].

Definition reachable : Gateway.World string (list (string * string)) :=
  gateway (λ _, Return monolithFields).

Definition unreachable : Gateway.World string (list (string * string)) :=
  gateway (λ _, Throw (Error "connect ECONNREFUSED 127.0.0.1:80")).

(** A customer who named a currency and a store. *)
Definition frenchShopper : GraphQLContext :=
  {| legacyToken := JSString "abc123";
     currency := JSString "EUR";
     store := JSString "fr" |}.

(** A network on which the monolith cannot be reached, one on which it
    answers, and a decoder that finds no JSON in the answer. *)
Definition refusedFetch (url : string) (init : ApolloFetcher.RequestInit)
  : Completion string :=
  Throw (Error "connect ECONNREFUSED 127.0.0.1:80").

Definition answeringFetch (url : string) (init : ApolloFetcher.RequestInit)
  : Completion string :=
  Return "{ data: {} }".

Definition decoded (response : string) : Completion string :=
  Return response.

Definition undecodable (response : string) : Completion string :=
  Throw (Error "Unexpected token < in JSON at position 0").

(** Requests as fastify receives them from Node, header names in lower
    case, with and without headers the context does not read. *)
Definition browserRequest : Gateway.FastifyRequest :=
  {| Gateway.headers :=
       {[ "authorization" := JSString "Bearer abc123";
          "content-currency" := JSString "EUR";
          "store" := JSString "fr";
          "accept" := JSString "application/json" ]} |}.

Definition bareRequest : Gateway.FastifyRequest :=
  {| Gateway.headers :=
       {[ "authorization" := JSString "Bearer abc123" ]} |}.

(** A gateway described by its environment and by how each step of
    its start goes. *)
Definition site (variables : gmap string string)
    (locals : Completion (gmap (string * string) string))
    (remotes : Completion (gmap (string * string) string))
    (introspect : string → Completion (list (string * string)))
    (bound : Completion (option string))
  : Gateway.World string (list (string * string)) :=
  {| Gateway.env := variables;
     Gateway.asArray := λ value, [value];
     Gateway.mergeSchemas := libraryMerge;
     Gateway.collectLocalExtensions := locals;
     Gateway.prepareRemoteExtensionSchemas := λ _, remotes;
     Gateway.introspectSchema := introspect;
     Gateway.makeRemoteExecutableSchema := passThrough;
     Gateway.listen := λ _ _, bound |}.

Definition everything : gmap string string :=
  {[ "IO_PACKAGES" := "promotions";
     "LEGACY_GRAPHQL_URL" := "http://magento.test/graphql";
     "PORT" := "8008" ]}.

Definition portOnly : gmap string string := {[ "PORT" := "8008" ]}.

Definition brokenPackage : JSError :=
  Error "Could not load local package".

Definition brokenRemote : JSError :=
  Error "Adobe I/O request failed".

Definition refused (url : string) : Completion (list (string * string)) :=
  Throw (Error "connect ECONNREFUSED 127.0.0.1:80").

(** The local packages of the repository and two remote packages. *)
Definition localNames : list string := ["catalog"; "legacy-proxy"].

Definition promotions : Startup.IOSchemaDef string :=
  {| Startup.schemaDef := "extend type Query { promotions: [String] }";
     Startup.pkg := "promotions" |}.

Definition reviews : Startup.IOSchemaDef string :=
  {| Startup.schemaDef := "extend type Query { reviews: [String] }";
     Startup.pkg := "reviews" |}.

(** A gateway whose three sources all have a [Product] type: the local
    and the remote one with [id] and [name], the monolith with [id]
    only. *)
Definition catalogLocal : gmap (string * string) string :=
  {[ ("Query", "productByID") := "local";
     ("Query", "countries") := "local";
     ("Query", "cart") := "local";
     ("Product", "id") := "local";
     ("Product", "name") := "local" ]}.

Definition catalogRemote : gmap (string * string) string :=
  {[ ("Query", "countries") := "remote";
     ("Query", "cart") := "remote";
     ("Product", "id") := "remote";
     ("Product", "name") := "remote" ]}.

Definition monolithWithProduct : list (string * string) :=
  [("Query", "cart"); ("Query", "storeConfig"); ("Product", "id")].

Definition storefront : Gateway.World string (list (string * string)) :=
  site everything (Return catalogLocal) (Return catalogRemote)
    (λ _, Return monolithWithProduct) (Return (Some "127.0.0.1:8008")).

(** A catalog backend whose call fails. *)
Definition failingBackend (_ : Catalog.ProductsGetRequest)
  : Completion (option Catalog.ProductsGetResult) :=
  Throw (ServiceError 14 "failed to connect to all addresses").

End Samples.

(** * Properties *)

(** ** Dictionaries *)

Section ObjectFacts.

Import ApolloFetcher.

Lemma lookup_filterUndefinedEntries (obj : gmap string JSValue) (k : string) :
  filterUndefinedEntries obj !! k =
    match obj !! k with
    | Some JSUndefined => None
    | found => found
    end.
Proof.
  unfold filterUndefinedEntries.
  rewrite <- (map_filter_alt (λ o : string * JSValue, o.2 ≠ JSUndefined)).
  rewrite map_lookup_filter.
  destruct (obj !! k) as [[|s]|]; simpl; try reflexivity.
  all: case_guard; simpl; congruence.
Qed.

Lemma lookup_Object_assign (target source : gmap string JSValue) (k : string) :
  Object_assign target source !! k =
    match source !! k with
    | Some v => Some v
    | None => target !! k
    end.
Proof.
  unfold Object_assign. rewrite lookup_union.
  destruct (source !! k), (target !! k); reflexivity.
Qed.

End ObjectFacts.

(** ** The monolith fetcher *)

Section FetcherFacts.

Import ApolloFetcher.

Context {DocumentNode Variables : Type}.
Implicit Type opts : IFetcherOperation DocumentNode Variables.

(** The headers of an operation that carries a context, key by key. *)
Lemma lookup_requestHeaders opts c (k : string) :
  context opts = Some c →
  requestHeaders opts !! k =
    if decide (k = "Authorization") then
      Some (JSString ("Bearer " +:+ toString (legacyToken (graphqlContext c))))
    else if decide (k = "Content-Currency") then
      match currency (graphqlContext c) with
      | JSUndefined => None
      | v => Some v
      end
    else if decide (k = "Store") then
      match store (graphqlContext c) with
      | JSUndefined => None
      | v => Some v
      end
    else if decide (k = "Content-Type") then
      Some (JSString "application/json")
    else None.
Proof.
  intros Hc. unfold requestHeaders. rewrite Hc.
  rewrite lookup_Object_assign, lookup_filterUndefinedEntries.
  repeat case_decide; subst; simplify_map_eq; try reflexivity.
  - destruct (currency (graphqlContext c)); reflexivity.
  - destruct (store (graphqlContext c)); reflexivity.
Qed.

(** Whatever the token is, an operation with a context is sent with an
    [Authorization] header: a bearer token when there is one, and the
    text of [undefined] otherwise. *)
Lemma authorization_attached opts c :
  context opts = Some c →
  requestHeaders opts !! "Authorization" =
    Some (JSString ("Bearer " +:+ toString (legacyToken (graphqlContext c)))).
Proof. intros Hc. by rewrite (lookup_requestHeaders opts c _ Hc). Qed.

End FetcherFacts.

(** C2, evaluated where it fails: an operation whose context has no
    token is sent with the header [Authorization: Bearer undefined],
    whereas the header should be left out. The template literal turns
    the missing token into text before [filterUndefinedEntries] looks
    at the entry. *)
Theorem bearer_undefined_without_token :
  ∀ (print : string → string)
    (JSON_stringify : ApolloFetcher.Payload unit → string) (url : string),
    ApolloFetcher.headers
      (ApolloFetcher.outboundRequest print JSON_stringify url
         (Samples.operation
            (Some {| ApolloFetcher.graphqlContext := Samples.anonymous |}))).2
      !! "Authorization"
    = Some (JSString "Bearer undefined").
Proof.
  intros print JSON_stringify url. simpl.
  rewrite (lookup_requestHeaders
             (Samples.operation
                (Some {| ApolloFetcher.graphqlContext := Samples.anonymous |}))
             {| ApolloFetcher.graphqlContext := Samples.anonymous |}
             "Authorization" eq_refl).
  reflexivity.
Qed.

(** C4: when the context of an operation has no currency, the request
    handed to [fetch] has no [Content-Currency] key among its headers,
    and when it has no store, no [Store] key. *)
Theorem absent_currency_or_store_is_omitted :
  ∀ (DocumentNode Variables : Type) (print : DocumentNode → string)
    (JSON_stringify : ApolloFetcher.Payload Variables → string)
    (url : string)
    (opts : ApolloFetcher.IFetcherOperation DocumentNode Variables)
    (c : ApolloFetcher.LinkContext),
    ApolloFetcher.context opts = Some c →
    let sent :=
      ApolloFetcher.headers
        (ApolloFetcher.outboundRequest print JSON_stringify url opts).2 in
    (currency (ApolloFetcher.graphqlContext c) = JSUndefined →
       sent !! "Content-Currency" = None)
    ∧ (store (ApolloFetcher.graphqlContext c) = JSUndefined →
         sent !! "Store" = None).
Proof.
  intros DocumentNode Variables print JSON_stringify url opts c Hc. simpl.
  split; intros Habsent;
    rewrite (lookup_requestHeaders opts c _ Hc); simpl; rewrite Habsent;
    reflexivity.
Qed.

Lemma absent_currency_or_store_is_omitted_witness :
  let sent :=
    ApolloFetcher.headers
      (ApolloFetcher.outboundRequest (λ q : string, q)
         (ApolloFetcher.payload_query unit) "http://magento.test/graphql"
         (Samples.operation
            (Some {| ApolloFetcher.graphqlContext := Samples.tokenOnly |}))).2 in
  sent !! "Content-Currency" = None ∧ sent !! "Store" = None.
Proof.
  destruct (absent_currency_or_store_is_omitted string unit (λ q, q)
              (ApolloFetcher.payload_query unit) "http://magento.test/graphql"
              (Samples.operation
                 (Some {| ApolloFetcher.graphqlContext := Samples.tokenOnly |}))
              _ eq_refl) as [Hcurrency Hstore].
  split; [apply Hcurrency | apply Hstore]; reflexivity.
Defined.

(** C10: an operation without a context object is sent with exactly one
    header, [Content-Type: application/json]. *)
Theorem no_context_only_content_type :
  ∀ (DocumentNode Variables : Type) (print : DocumentNode → string)
    (JSON_stringify : ApolloFetcher.Payload Variables → string)
    (url : string)
    (opts : ApolloFetcher.IFetcherOperation DocumentNode Variables),
    ApolloFetcher.context opts = None →
    ApolloFetcher.headers
      (ApolloFetcher.outboundRequest print JSON_stringify url opts).2
    = {[ "Content-Type" := JSString "application/json" ]}.
Proof.
  intros DocumentNode Variables print JSON_stringify url opts Hnone.
  simpl. unfold ApolloFetcher.requestHeaders. rewrite Hnone. reflexivity.
Qed.

Lemma no_context_only_content_type_witness :
  ApolloFetcher.headers
    (ApolloFetcher.outboundRequest (λ q : string, q)
       (ApolloFetcher.payload_query unit) "http://magento.test/graphql"
       (Samples.operation None)).2
  = {[ "Content-Type" := JSString "application/json" ]}.
Proof.
  apply (no_context_only_content_type string unit). reflexivity.
Defined.

(** ** The catalog extension *)

(** C3, evaluated where it fails: when the catalog answers with an empty
    item list, the resolver neither yields an absent product nor a
    not-found error of its own; the promise is rejected with the
    [TypeError] of calling [getSku] on [undefined]. *)
Theorem productByID_empty_items_fault :
  (Catalog.productByID Samples.emptyBackend "123").2
  = Throw (TypeError "Cannot read property 'getSku' of undefined").
Proof. reflexivity. Qed.

(** C5: whatever the backend answers, the resolver sends it exactly one
    message, whose identifier list holds the given identifier alone and
    whose store is ["default"]. *)
Theorem productByID_request :
  ∀ (getProducts : Catalog.ProductsGetRequest
                   → Completion (option Catalog.ProductsGetResult))
    (id : string),
    (Catalog.productByID getProducts id).1
    = [ {| Catalog.getIdsList := [id]; Catalog.getStore := "default" |} ].
Proof. intros getProducts id. reflexivity. Qed.

(** C6: when the call resolves without a response object, the promise
    of the resolver is rejected with the assertion error, a value its
    caller can catch; and when a response object is received, whatever
    the resolver settles with is not that assertion error. *)
Theorem productByID_missing_response :
  ∀ (getProducts : Catalog.ProductsGetRequest
                   → Completion (option Catalog.ProductsGetResult))
    (id : string),
    (getProducts (Catalog.lookupMessage id) = Return None →
       (Catalog.productByID getProducts id).2
       = Throw (AssertionError
                  "Did not receive a response from Catalog gRPC API"))
    ∧ (∀ res : Catalog.ProductsGetResult,
         getProducts (Catalog.lookupMessage id) = Return (Some res) →
         ∀ message : string,
           (Catalog.productByID getProducts id).2
           ≠ Throw (AssertionError message)).
Proof.
  intros getProducts id. split.
  - intros Hnone. unfold Catalog.productByID. simpl. rewrite Hnone.
    reflexivity.
  - intros res Hres message. unfold Catalog.productByID. simpl.
    rewrite Hres. simpl.
    destruct (Catalog.getItemsList res) as [|product others];
      discriminate.
Qed.

Lemma productByID_missing_response_witness :
  (Catalog.productByID Samples.silentBackend "123").2
  = Throw (AssertionError "Did not receive a response from Catalog gRPC API")
  ∧ (Catalog.productByID Samples.twoItemBackend "123").2
    ≠ Throw (AssertionError "Did not receive a response from Catalog gRPC API").
Proof.
  split.
  - apply (productByID_missing_response Samples.silentBackend "123").
    reflexivity.
  - apply (proj2 (productByID_missing_response Samples.twoItemBackend "123")
             {| Catalog.getItemsList := [Samples.bag; Samples.watch] |}).
    reflexivity.
Defined.

(** C7: when the response has at least one item, the resolver yields the
    SKU of the first item as [id] and its name as [name]; the items
    after the first play no part. *)
Theorem productByID_first_item :
  ∀ (getProducts : Catalog.ProductsGetRequest
                   → Completion (option Catalog.ProductsGetResult))
    (id : string) (res : Catalog.ProductsGetResult)
    (product : Catalog.Product) (others : list Catalog.Product),
    getProducts (Catalog.lookupMessage id) = Return (Some res) →
    Catalog.getItemsList res = product :: others →
    (Catalog.productByID getProducts id).2
    = Return {| Catalog.id := Catalog.getSku product;
                Catalog.name := Catalog.getName product |}.
Proof.
  intros getProducts id res product others Hres Hitems.
  unfold Catalog.productByID. simpl. rewrite Hres. simpl.
  rewrite Hitems. reflexivity.
Qed.

Lemma productByID_first_item_witness :
  (Catalog.productByID Samples.twoItemBackend "123").2
  = Return {| Catalog.id := "24-MB01"; Catalog.name := "Joust Duffle Bag" |}.
Proof.
  apply (productByID_first_item Samples.twoItemBackend "123"
           {| Catalog.getItemsList := [Samples.bag; Samples.watch] |}
           Samples.bag [Samples.watch]); reflexivity.
Defined.

(** ** The entry point *)

Lemma string_app_assoc (a b c : string) :
  (a +:+ b) +:+ c = a +:+ (b +:+ c).
Proof.
  induction a as [|ch a IH]; [reflexivity |].
  change (String ch ((a +:+ b) +:+ c) = String ch (a +:+ (b +:+ c))).
  by rewrite IH.
Qed.

Lemma introspectionFailure_includes (legacyURL : string) :
  Gateway.includes (Gateway.introspectionFailure legacyURL) legacyURL.
Proof.
  exists ("Failed introspecting remote Magento schema at " +:+ Gateway.dquote),
    (Gateway.dquote +:+ ". "
       +:+ "Make sure that the LEGACY_GRAPHQL_URL variable has the "
       +:+ "correct value for your Magento instance").
  unfold Gateway.introspectionFailure.
  rewrite !string_app_assoc. reflexivity.
Qed.

(** The merge of graphql-tools, one schema at a time and field by
    field. *)
Lemma lookup_mergeInto {Resolver : Type} (defaultMergedResolver : Resolver)
    (merged schema : gmap (string * string) Resolver)
    (type field : string) :
  Gateway.mergeInto defaultMergedResolver merged schema !! (type, field) =
    match schema !! (type, field) with
    | Some resolver =>
        Some (if Gateway.isRootType type then resolver
              else defaultMergedResolver)
    | None =>
        if Gateway.isRootType type then merged !! (type, field)
        else if decide (Gateway.definesType schema type) then None
             else merged !! (type, field)
    end.
Proof.
  unfold Gateway.mergeInto.
  rewrite lookup_union, map_lookup_imap, map_lookup_filter.
  destruct (schema !! (type, field)) as [resolver|]; simpl.
  - by destruct (merged !! (type, field)); simpl; try case_guard.
  - destruct (merged !! (type, field)) as [kept|]; simpl;
      [| by repeat case_match].
    destruct (Gateway.isRootType type) eqn:Hroot.
    + case_guard as Hkeep; [done |]. exfalso. apply Hkeep. by left.
    + case_decide as Hdefined; case_guard as Hkeep; simpl; try done.
      * destruct Hkeep as [? | Hnot]; [done | by destruct Hnot].
      * exfalso. apply Hkeep. by right.
Qed.

(** Merging a schema without fields changes nothing. *)
Lemma mergeInto_empty {Resolver : Type} (defaultMergedResolver : Resolver)
    (merged : gmap (string * string) Resolver) :
  Gateway.mergeInto defaultMergedResolver merged ∅ = merged.
Proof.
  apply map_eq. intros [type field].
  rewrite lookup_mergeInto, lookup_empty.
  destruct (Gateway.isRootType type); [done |].
  case_decide as Hdefined; [| done].
  by apply map_Exists_empty in Hdefined.
Qed.

(** The schema registered with the server is the merge of what the
    three sources produce, a source that is not configured counting as
    a schema without fields. *)
Lemma composedSchema_sources
    {Resolver RawSchema : Type} (w : Gateway.World Resolver RawSchema)
    (defaultMergedResolver : Resolver)
    (local remote legacy : gmap (string * string) Resolver) :
  Gateway.mergeSchemas w = Gateway.graphqlToolsMerge defaultMergedResolver →
  Gateway.collectLocalExtensions w = Return local →
  match Gateway.env w !! "IO_PACKAGES" with
  | Some value =>
      Gateway.prepareRemoteExtensionSchemas w (Gateway.asArray w value)
      = Return remote
  | None => remote = ∅
  end →
  match Gateway.env w !! "LEGACY_GRAPHQL_URL" with
  | Some url => Gateway.prepareFallbackSchema w url = Return legacy
  | None => legacy = ∅
  end →
  Gateway.composedSchema w
  = Return (Gateway.graphqlToolsMerge defaultMergedResolver
              [local; remote; legacy]).
Proof.
  intros Hmerge Hlocal Hremote Hlegacy.
  unfold Gateway.composedSchema, Gateway.collectSchemas.
  rewrite Hlocal, Hmerge. simpl.
  destruct (Gateway.env w !! "IO_PACKAGES") as [value|];
    [rewrite Hremote | rewrite Hremote]; simpl;
    (destruct (Gateway.env w !! "LEGACY_GRAPHQL_URL") as [url|];
     [rewrite Hlegacy | rewrite Hlegacy]); simpl;
    f_equal; unfold Gateway.graphqlToolsMerge; simpl;
    by rewrite ?mergeInto_empty.
Qed.

(** C1, as amended: let [mergeSchemas] be the merge of graphql-tools,
    and let [local], [remote] and [legacy] be the schemas the three
    sources produce, a source that is not configured defining no field.
    Then [main] composes a schema in which every field of a root type,
    [Query], [Mutation] or [Subscription], resolves as in the latest
    source that defines it, in the order local, remote, legacy: a root
    field of the legacy source always resolves as there; a root field
    of the remote source resolves as there unless the legacy source
    defines it; the local source decides the root fields left. *)
Theorem root_field_precedence :
  ∀ (Resolver RawSchema : Type) (w : Gateway.World Resolver RawSchema)
    (defaultMergedResolver : Resolver)
    (local remote legacy : gmap (string * string) Resolver),
    Gateway.mergeSchemas w
    = Gateway.graphqlToolsMerge defaultMergedResolver →
    Gateway.collectLocalExtensions w = Return local →
    match Gateway.env w !! "IO_PACKAGES" with
    | Some value =>
        Gateway.prepareRemoteExtensionSchemas w (Gateway.asArray w value)
        = Return remote
    | None => remote = ∅
    end →
    match Gateway.env w !! "LEGACY_GRAPHQL_URL" with
    | Some url => Gateway.prepareFallbackSchema w url = Return legacy
    | None => legacy = ∅
    end →
    ∃ schema : gmap (string * string) Resolver,
      Gateway.composedSchema w = Return schema
      ∧ ∀ type field : string,
          Gateway.isRootType type = true →
          (∀ r, legacy !! (type, field) = Some r →
                schema !! (type, field) = Some r)
          ∧ (∀ r, remote !! (type, field) = Some r →
                  legacy !! (type, field) = None →
                  schema !! (type, field) = Some r)
          ∧ (remote !! (type, field) = None →
               legacy !! (type, field) = None →
               schema !! (type, field) = local !! (type, field)).
Proof.
  intros Resolver RawSchema w defaultMergedResolver local remote legacy
    Hmerge Hlocal Hremote Hlegacy.
  eexists. split.
  - by apply (composedSchema_sources w defaultMergedResolver
                local remote legacy).
  - intros type field Hroot.
    unfold Gateway.graphqlToolsMerge. simpl.
    rewrite !lookup_mergeInto, Hroot, lookup_empty.
    split; [| split].
    + intros r Hr. by rewrite Hr.
    + intros r Hr Hnone. by rewrite Hnone, Hr.
    + intros Hr Hg. rewrite Hg, Hr. by destruct (local !! (type, field)).
Qed.

Lemma root_field_precedence_witness :
  ∃ schema : gmap (string * string) string,
    Gateway.composedSchema Samples.storefront = Return schema
    ∧ schema !! ("Query", "cart") = Some "legacy"
    ∧ schema !! ("Query", "countries") = Some "remote"
    ∧ schema !! ("Query", "productByID") = Some "local".
Proof.
  destruct (root_field_precedence string (list (string * string))
              Samples.storefront "parent"
              Samples.catalogLocal Samples.catalogRemote
              (Samples.passThrough Samples.monolithWithProduct
                 "http://magento.test/graphql")
              eq_refl eq_refl eq_refl eq_refl)
    as [schema [Hschema Hfields]].
  exists schema. split; [exact Hschema |]. split; [| split].
  - apply (proj1 (Hfields "Query" "cart" eq_refl)). reflexivity.
  - apply (proj1 (proj2 (Hfields "Query" "countries" eq_refl)));
      reflexivity.
  - rewrite (proj2 (proj2 (Hfields "Query" "productByID" eq_refl)));
      reflexivity.
Defined.

(** C1, as it was stated, fails off the root types. In the gateway
    below the local and the remote source define [Product.name] and all
    three define [Product.id]. The composed schema takes [Product]
    whole from the monolith, which has no [name]: [Product.name] is not
    in it, though the remote source is the latest to define it; and
    [Product.id] does not resolve as the monolith resolves it, but with
    the default resolver. *)
Lemma precedence_fails_off_root_types :
  ∃ schema : gmap (string * string) string,
    Gateway.composedSchema Samples.storefront = Return schema
    ∧ (Samples.catalogLocal !! ("Product", "name") = Some "local"
       ∧ Samples.catalogRemote !! ("Product", "name") = Some "remote"
       ∧ Samples.passThrough Samples.monolithWithProduct
           "http://magento.test/graphql" !! ("Product", "name") = None
       ∧ schema !! ("Product", "name") = None)
    ∧ (Samples.catalogLocal !! ("Product", "id") = Some "local"
       ∧ Samples.passThrough Samples.monolithWithProduct
           "http://magento.test/graphql" !! ("Product", "id")
         = Some "legacy"
       ∧ schema !! ("Product", "id") = Some "parent").
Proof.
  eexists. split.
  - apply (composedSchema_sources Samples.storefront "parent"
             Samples.catalogLocal Samples.catalogRemote
             (Samples.passThrough Samples.monolithWithProduct
                "http://magento.test/graphql")); reflexivity.
  - unfold Gateway.graphqlToolsMerge. simpl.
    rewrite !lookup_mergeInto.
    split; [split; [| split; [| split]] | split; [| split]];
      reflexivity.
Qed.

(** C8: the context is a function of the request headers alone. With
    only [authorization] set, the token is that header and currency and
    store are undefined; without headers all three are undefined; and a
    header that is missing leaves its field undefined, there being no
    request for which the extraction fails. *)
Theorem context_extraction :
  (∀ token : string,
     Gateway.context
       {| Gateway.headers := {[ "authorization" := JSString token ]} |}
     = {| legacyToken := JSString token;
          currency := JSUndefined;
          store := JSUndefined |})
  ∧ Gateway.context {| Gateway.headers := ∅ |}
    = {| legacyToken := JSUndefined;
         currency := JSUndefined;
         store := JSUndefined |}
  ∧ ∀ req : Gateway.FastifyRequest,
      (Gateway.headers req !! "authorization" = None →
         legacyToken (Gateway.context req) = JSUndefined)
      ∧ (Gateway.headers req !! "Content-Currency" = None →
           currency (Gateway.context req) = JSUndefined)
      ∧ (Gateway.headers req !! "Store" = None →
           store (Gateway.context req) = JSUndefined).
Proof.
  split; [| split].
  - intros token. reflexivity.
  - reflexivity.
  - intros req. unfold Gateway.context, getProp. simpl.
    repeat split; intros Hmissing; rewrite Hmissing; reflexivity.
Qed.

Lemma context_extraction_witness :
  Gateway.context
    {| Gateway.headers := {[ "authorization" := JSString "Bearer abc123" ]} |}
  = {| legacyToken := JSString "Bearer abc123";
       currency := JSUndefined;
       store := JSUndefined |}
  ∧ currency
      (Gateway.context
         {| Gateway.headers := {[ "Store" := JSString "fr" ]} |})
    = JSUndefined.
Proof.
  split.
  - apply (proj1 context_extraction).
  - apply (proj2 (proj2 context_extraction)
             {| Gateway.headers := {[ "Store" := JSString "fr" ]} |}).
    reflexivity.
Defined.

(** C9: when a legacy endpoint is configured and the steps before it
    succeed, so that introspection is attempted, a failing
    introspection makes [prepareFallbackSchema] throw an [Error] whose
    message includes the configured URL; [main] lets it through, and
    the process prints it and exits with code 1 instead of serving. *)
Theorem introspection_failure_aborts_startup :
  ∀ (Resolver RawSchema : Type) (w : Gateway.World Resolver RawSchema)
    (legacyURL : string) (err : JSError),
    Gateway.env w !! "LEGACY_GRAPHQL_URL" = Some legacyURL →
    (∃ local, Gateway.collectLocalExtensions w = Return local) →
    (∀ value, Gateway.env w !! "IO_PACKAGES" = Some value →
       ∃ remote,
         Gateway.prepareRemoteExtensionSchemas w (Gateway.asArray w value)
         = Return remote) →
    Gateway.introspectSchema w legacyURL = Throw err →
    ∃ message : string,
      Gateway.prepareFallbackSchema w legacyURL = Throw (Error message)
      ∧ Gateway.main w = Throw (Error message)
      ∧ Gateway.start w = Gateway.Exited 1 (Error message)
      ∧ Gateway.includes message legacyURL.
Proof.
  intros Resolver RawSchema w legacyURL err Hurl [local Hlocal] Hremote Herr.
  exists (Gateway.introspectionFailure legacyURL).
  assert (Hfallback :
            Gateway.prepareFallbackSchema w legacyURL
            = Throw (Error (Gateway.introspectionFailure legacyURL))).
  { unfold Gateway.prepareFallbackSchema. simpl. rewrite Herr. reflexivity. }
  assert (Hmain :
            Gateway.main w
            = Throw (Error (Gateway.introspectionFailure legacyURL))).
  { unfold Gateway.main, Gateway.composedSchema, Gateway.collectSchemas.
    rewrite Hlocal, Hurl. simpl.
    destruct (Gateway.env w !! "IO_PACKAGES") as [value|].
    - destruct (Hremote value eq_refl) as [remote Hprepared].
      rewrite Hprepared. simpl. rewrite Hfallback. reflexivity.
    - simpl. rewrite Hfallback. reflexivity. }
  split; [exact Hfallback |]. split; [exact Hmain |]. split.
  - unfold Gateway.start. rewrite Hmain. reflexivity.
  - apply introspectionFailure_includes.
Qed.

Lemma introspection_failure_aborts_startup_witness :
  ∃ message : string,
    Gateway.start Samples.unreachable = Gateway.Exited 1 (Error message)
    ∧ Gateway.includes message "http://magento.test/graphql".
Proof.
  destruct (introspection_failure_aborts_startup
              string (list (string * string)) Samples.unreachable
              "http://magento.test/graphql"
              (Error "connect ECONNREFUSED 127.0.0.1:80") eq_refl
              (ex_intro _ Samples.localSchema eq_refl)
              (λ value _, ex_intro _ Samples.remoteSchema eq_refl)
              eq_refl) as [message (_ & _ & Hstart & Hincludes)].
  exists message. split; [exact Hstart | exact Hincludes].
Defined.

(** * Further properties of the code *)

(** ** [filterUndefinedEntries] *)

(** X1: an entry is in the filtered object exactly when it is in the
    given object with a value other than [undefined]. *)
Theorem filterUndefinedEntries_entries :
  ∀ (obj : gmap string JSValue) (k : string) (v : JSValue),
    ApolloFetcher.filterUndefinedEntries obj !! k = Some v
    ↔ obj !! k = Some v ∧ v ≠ JSUndefined.
Proof.
  intros obj k v. rewrite lookup_filterUndefinedEntries.
  destruct (obj !! k) as [[|s]|]; split;
    try (intros [Hv Hdefined]); try intros Hv;
    simplify_eq; try done.
Qed.

(** X2: filtering twice is filtering once. *)
Theorem filterUndefinedEntries_idempotent :
  ∀ obj : gmap string JSValue,
    ApolloFetcher.filterUndefinedEntries
      (ApolloFetcher.filterUndefinedEntries obj)
    = ApolloFetcher.filterUndefinedEntries obj.
Proof.
  intros obj. apply map_eq. intros k.
  rewrite !lookup_filterUndefinedEntries.
  by destruct (obj !! k) as [[|s]|].
Qed.

(** X3: the filter gives back the object it was given exactly when no
    property of that object is [undefined]. *)
Theorem filterUndefinedEntries_unchanged :
  ∀ obj : gmap string JSValue,
    ApolloFetcher.filterUndefinedEntries obj = obj
    ↔ ∀ k : string, obj !! k ≠ Some JSUndefined.
Proof.
  intros obj. split.
  - intros Hsame k Hk.
    assert (Hfiltered :
              ApolloFetcher.filterUndefinedEntries obj !! k
              = Some JSUndefined) by (by rewrite Hsame).
    rewrite lookup_filterUndefinedEntries, Hk in Hfiltered.
    discriminate.
  - intros Hdefined. apply map_eq. intros k.
    rewrite lookup_filterUndefinedEntries.
    specialize (Hdefined k).
    by destruct (obj !! k) as [[|s]|].
Qed.

(** ** The headers of the outbound request *)

(** X4: whatever the operation and its context hold, the request is
    sent with [Content-Type: application/json]; no field of the context
    can replace it. *)
Theorem content_type_always_json :
  ∀ (DocumentNode Variables : Type)
    (opts : ApolloFetcher.IFetcherOperation DocumentNode Variables),
    ApolloFetcher.requestHeaders opts !! "Content-Type"
    = Some (JSString "application/json").
Proof.
  intros DocumentNode Variables opts.
  destruct (ApolloFetcher.context opts) as [c|] eqn:Hc.
  - by rewrite (lookup_requestHeaders opts c _ Hc).
  - unfold ApolloFetcher.requestHeaders. rewrite Hc.
    apply lookup_singleton_eq.
Qed.

(** X5: every header of the request has a string for value, never
    [undefined], and is one of [Content-Type], [Authorization],
    [Content-Currency] and [Store]. *)
Theorem headers_are_known_strings :
  ∀ (DocumentNode Variables : Type)
    (opts : ApolloFetcher.IFetcherOperation DocumentNode Variables)
    (k : string) (v : JSValue),
    ApolloFetcher.requestHeaders opts !! k = Some v →
    (∃ text : string, v = JSString text)
    ∧ k ∈ ["Content-Type"; "Authorization"; "Content-Currency"; "Store"].
Proof.
  intros DocumentNode Variables opts k v.
  destruct (ApolloFetcher.context opts) as [c|] eqn:Hc.
  - rewrite (lookup_requestHeaders opts c _ Hc).
    repeat case_decide; subst; intros Hv;
      try destruct (currency _); try destruct (store _);
      simplify_eq; split; eauto; set_solver.
  - unfold ApolloFetcher.requestHeaders. rewrite Hc.
    intros [<- <-]%lookup_singleton_Some. split; eauto. set_solver.
Qed.

Lemma headers_are_known_strings_witness :
  (∃ text : string, JSString "Bearer abc123" = JSString text)
  ∧ "Authorization"
    ∈ ["Content-Type"; "Authorization"; "Content-Currency"; "Store"].
Proof.
  apply (headers_are_known_strings string unit
           (Samples.operation
              (Some {| ApolloFetcher.graphqlContext := Samples.tokenOnly |}))
           "Authorization" (JSString "Bearer abc123")).
  vm_compute. reflexivity.
Defined.

(** X6: the fields the context has are forwarded: a token as
    [Authorization: Bearer <token>], a currency as [Content-Currency]
    and a store as [Store], each with the value it has in the
    context. *)
Theorem present_fields_are_forwarded :
  ∀ (DocumentNode Variables : Type)
    (opts : ApolloFetcher.IFetcherOperation DocumentNode Variables)
    (c : ApolloFetcher.LinkContext),
    ApolloFetcher.context opts = Some c →
    (∀ token, legacyToken (ApolloFetcher.graphqlContext c) = JSString token →
       ApolloFetcher.requestHeaders opts !! "Authorization"
       = Some (JSString ("Bearer " +:+ token)))
    ∧ (∀ code, currency (ApolloFetcher.graphqlContext c) = JSString code →
         ApolloFetcher.requestHeaders opts !! "Content-Currency"
         = Some (JSString code))
    ∧ (∀ view, store (ApolloFetcher.graphqlContext c) = JSString view →
         ApolloFetcher.requestHeaders opts !! "Store"
         = Some (JSString view)).
Proof.
  intros DocumentNode Variables opts c Hc.
  repeat split; intros value Hvalue;
    rewrite (lookup_requestHeaders opts c _ Hc); simpl;
    by rewrite Hvalue.
Qed.

Lemma present_fields_are_forwarded_witness :
  let sent :=
    ApolloFetcher.requestHeaders
      (Samples.operation
         (Some {| ApolloFetcher.graphqlContext := Samples.frenchShopper |})) in
  sent !! "Authorization" = Some (JSString "Bearer abc123")
  ∧ sent !! "Content-Currency" = Some (JSString "EUR")
  ∧ sent !! "Store" = Some (JSString "fr").
Proof.
  destruct (present_fields_are_forwarded string unit
              (Samples.operation
                 (Some {| ApolloFetcher.graphqlContext :=
                            Samples.frenchShopper |}))
              _ eq_refl) as (Htoken & Hcurrency & Hstore).
  split; [| split]; [apply Htoken | apply Hcurrency | apply Hstore];
    reflexivity.
Defined.

(** ** The fetcher as a whole *)

(** X7: the fetcher resolves with the decoded answer when [fetch] and
    the decoding both succeed, and otherwise rejects with the error of
    the first of the two that fails; a failed [fetch] is not decoded. *)
Theorem fetcher_outcome :
  ∀ (DocumentNode Variables Response Json : Type)
    (print : DocumentNode → string)
    (JSON_stringify : ApolloFetcher.Payload Variables → string)
    (fetch : string → ApolloFetcher.RequestInit → Completion Response)
    (json : Response → Completion Json) (url : string)
    (opts : ApolloFetcher.IFetcherOperation DocumentNode Variables),
    let sent := ApolloFetcher.outboundRequest print JSON_stringify url opts in
    let outcome :=
      ApolloFetcher.createMonolithApolloFetcher DocumentNode Variables
        Response Json print JSON_stringify fetch json url opts in
    (∀ answer, outcome = Return answer
               ↔ ∃ response, fetch sent.1 sent.2 = Return response
                             ∧ json response = Return answer)
    ∧ (∀ e, outcome = Throw e
            ↔ fetch sent.1 sent.2 = Throw e
              ∨ ∃ response, fetch sent.1 sent.2 = Return response
                            ∧ json response = Throw e).
Proof.
  intros DocumentNode Variables Response Json print JSON_stringify
    fetch json url opts. simpl.
  unfold ApolloFetcher.createMonolithApolloFetcher. simpl.
  destruct (fetch url _) as [response|failure]; simpl; split.
  - intros answer. split; [eauto | by intros [? [[= <-] ?]]].
  - intros e. split; [eauto | by intros [? | [? [[= <-] ?]]]].
  - intros answer. split; [done | by intros [? [? ?]]].
  - intros e. split; [intros [= <-]; by left |].
    intros [[= <-] | [? [? ?]]]; done.
Qed.

(** ** The product lookup *)

(** X8: when the call to the catalog fails, the resolver rejects with
    the error of the call, as it is. *)
Theorem productByID_backend_failure :
  ∀ (getProducts : Catalog.ProductsGetRequest
                   → Completion (option Catalog.ProductsGetResult))
    (id : string) (e : JSError),
    getProducts (Catalog.lookupMessage id) = Throw e →
    (Catalog.productByID getProducts id).2 = Throw e.
Proof.
  intros getProducts id e Hfailed.
  unfold Catalog.productByID. simpl. by rewrite Hfailed.
Qed.

Lemma productByID_backend_failure_witness :
  (Catalog.productByID Samples.failingBackend "123").2
  = Throw (ServiceError 14 "failed to connect to all addresses").
Proof.
  apply (productByID_backend_failure Samples.failingBackend "123").
  reflexivity.
Defined.

(** X9: the resolver yields a product exactly when the catalog answers
    with a response that has at least one item. *)
Theorem productByID_resolves_iff :
  ∀ (getProducts : Catalog.ProductsGetRequest
                   → Completion (option Catalog.ProductsGetResult))
    (id : string),
    (∃ found, (Catalog.productByID getProducts id).2 = Return found)
    ↔ ∃ res product others,
        getProducts (Catalog.lookupMessage id) = Return (Some res)
        ∧ Catalog.getItemsList res = product :: others.
Proof.
  intros getProducts id. unfold Catalog.productByID. simpl.
  destruct (getProducts (Catalog.lookupMessage id)) as [[res|]|failure];
    simpl.
  - destruct (Catalog.getItemsList res) as [|product others] eqn:Hitems.
    + split; [by intros [? ?] |].
      intros (res' & product & others & [= <-] & Hcons). congruence.
    + split; [eauto 6 | eauto].
  - split; [by intros [? ?] | by intros (? & ? & ? & ? & ?)].
  - split; [by intros [? ?] | by intros (? & ? & ? & ? & ?)].
Qed.

(** ** The request context *)

(** X10: the context is decided by the three headers it reads; two
    requests that agree on them get the same context, whatever else
    they carry. *)
Theorem context_reads_three_headers :
  ∀ req req' : Gateway.FastifyRequest,
    Gateway.headers req !! "authorization"
    = Gateway.headers req' !! "authorization" →
    Gateway.headers req !! "Content-Currency"
    = Gateway.headers req' !! "Content-Currency" →
    Gateway.headers req !! "Store" = Gateway.headers req' !! "Store" →
    Gateway.context req = Gateway.context req'.
Proof.
  intros req req' Htoken Hcurrency Hstore.
  unfold Gateway.context, getProp.
  by rewrite Htoken, Hcurrency, Hstore.
Qed.

Lemma context_reads_three_headers_witness :
  Gateway.context Samples.browserRequest
  = Gateway.context Samples.bareRequest.
Proof.
  apply (context_reads_three_headers Samples.browserRequest
           Samples.bareRequest); reflexivity.
Defined.

(** X11: the currency and the store are read under the names
    [Content-Currency] and [Store], capitals included. A request whose
    header names are all in lower case therefore gets a context without
    currency and without store, whatever headers it carries. *)
Theorem lower_case_headers_give_no_currency_or_store :
  ∀ req : Gateway.FastifyRequest,
    map_Forall (λ name _, Node.lowerCased name = true)
      (Gateway.headers req) →
    currency (Gateway.context req) = JSUndefined
    ∧ store (Gateway.context req) = JSUndefined.
Proof.
  intros req Hlower. unfold Gateway.context, getProp. simpl.
  split.
  - destruct (Gateway.headers req !! "Content-Currency") as [v|] eqn:Hv;
      [| reflexivity].
    apply Hlower in Hv. discriminate.
  - destruct (Gateway.headers req !! "Store") as [v|] eqn:Hv;
      [| reflexivity].
    apply Hlower in Hv. discriminate.
Qed.

Lemma lower_case_headers_give_no_currency_or_store_witness :
  currency (Gateway.context Samples.browserRequest) = JSUndefined
  ∧ store (Gateway.context Samples.browserRequest) = JSUndefined.
Proof.
  apply (lower_case_headers_give_no_currency_or_store
           Samples.browserRequest).
  apply (bool_decide_unpack _). vm_compute. reflexivity.
Defined.

(** X12: from the headers of the inbound request to those sent to the
    monolith. The [authorization] header, whatever its text, comes out
    behind [Bearer ], and a request without one comes out as
    [Bearer undefined]; [Content-Currency] and [Store] come out as they
    came in, or not at all. *)
Theorem inbound_to_outbound_headers :
  ∀ (DocumentNode Variables : Type)
    (opts : ApolloFetcher.IFetcherOperation DocumentNode Variables)
    (req : Gateway.FastifyRequest),
    ApolloFetcher.context opts
    = Some {| ApolloFetcher.graphqlContext := Gateway.context req |} →
    let sent := ApolloFetcher.requestHeaders opts in
    sent !! "Authorization"
    = Some (JSString
              ("Bearer "
                 +:+ toString (getProp (Gateway.headers req) "authorization")))
    ∧ sent !! "Content-Currency"
      = match getProp (Gateway.headers req) "Content-Currency" with
        | JSUndefined => None
        | v => Some v
        end
    ∧ sent !! "Store"
      = match getProp (Gateway.headers req) "Store" with
        | JSUndefined => None
        | v => Some v
        end.
Proof.
  intros DocumentNode Variables opts req Hc. simpl.
  by rewrite !(lookup_requestHeaders opts _ _ Hc).
Qed.

Lemma inbound_to_outbound_headers_witness :
  let sent :=
    ApolloFetcher.requestHeaders
      (Samples.operation
         (Some {| ApolloFetcher.graphqlContext :=
                    Gateway.context Samples.browserRequest |})) in
  sent !! "Authorization" = Some (JSString "Bearer Bearer abc123")
  ∧ sent !! "Content-Currency" = None
  ∧ sent !! "Store" = None.
Proof.
  apply (inbound_to_outbound_headers string unit
           (Samples.operation
              (Some {| ApolloFetcher.graphqlContext :=
                         Gateway.context Samples.browserRequest |}))
           Samples.browserRequest eq_refl).
Defined.

(** ** Starting the gateway *)

(** X13: without [LEGACY_GRAPHQL_URL] the monolith plays no part: the
    start ends the same way whatever introspection would answer and
    whatever schema would be built from it. *)
Theorem unconfigured_legacy_is_not_consulted :
  ∀ (Resolver RawSchema : Type) (w : Gateway.World Resolver RawSchema)
    (introspect : string → Completion RawSchema)
    (passThrough : RawSchema → string → gmap (string * string) Resolver),
    Gateway.env w !! "LEGACY_GRAPHQL_URL" = None →
    Gateway.start
      {| Gateway.env := Gateway.env w;
         Gateway.asArray := Gateway.asArray w;
         Gateway.mergeSchemas := Gateway.mergeSchemas w;
         Gateway.collectLocalExtensions := Gateway.collectLocalExtensions w;
         Gateway.prepareRemoteExtensionSchemas :=
           Gateway.prepareRemoteExtensionSchemas w;
         Gateway.introspectSchema := introspect;
         Gateway.makeRemoteExecutableSchema := passThrough;
         Gateway.listen := Gateway.listen w |}
    = Gateway.start w.
Proof.
  intros Resolver RawSchema w introspect passThrough Hunset.
  unfold Gateway.start, Gateway.main, Gateway.composedSchema,
    Gateway.collectSchemas.
  simpl. by rewrite Hunset.
Qed.

Lemma unconfigured_legacy_is_not_consulted_witness :
  Gateway.start
    (Samples.site Samples.portOnly (Return Samples.localSchema)
       (Return Samples.remoteSchema) Samples.refused
       (Return (Some "127.0.0.1:8008")))
  = Gateway.start
      (Samples.site Samples.portOnly (Return Samples.localSchema)
         (Return Samples.remoteSchema)
         (λ _, Return Samples.monolithFields)
         (Return (Some "127.0.0.1:8008"))).
Proof.
  apply (unconfigured_legacy_is_not_consulted string (list (string * string))
           (Samples.site Samples.portOnly (Return Samples.localSchema)
              (Return Samples.remoteSchema)
              (λ _, Return Samples.monolithFields)
              (Return (Some "127.0.0.1:8008")))
           Samples.refused Samples.passThrough).
  reflexivity.
Defined.

(** X14: without [IO_PACKAGES] the remote packages play no part: the
    start ends the same way whatever their preparation would give. *)
Theorem unconfigured_remote_is_not_consulted :
  ∀ (Resolver RawSchema : Type) (w : Gateway.World Resolver RawSchema)
    (split : string → list string)
    (prepare : list string → Completion (gmap (string * string) Resolver)),
    Gateway.env w !! "IO_PACKAGES" = None →
    Gateway.start
      {| Gateway.env := Gateway.env w;
         Gateway.asArray := split;
         Gateway.mergeSchemas := Gateway.mergeSchemas w;
         Gateway.collectLocalExtensions := Gateway.collectLocalExtensions w;
         Gateway.prepareRemoteExtensionSchemas := prepare;
         Gateway.introspectSchema := Gateway.introspectSchema w;
         Gateway.makeRemoteExecutableSchema :=
           Gateway.makeRemoteExecutableSchema w;
         Gateway.listen := Gateway.listen w |}
    = Gateway.start w.
Proof.
  intros Resolver RawSchema w split prepare Hunset.
  unfold Gateway.start, Gateway.main, Gateway.composedSchema,
    Gateway.collectSchemas, Gateway.prepareFallbackSchema.
  simpl. by rewrite Hunset.
Qed.

Lemma unconfigured_remote_is_not_consulted_witness :
  Gateway.start
    (Samples.site Samples.portOnly (Return Samples.localSchema)
       (Throw Samples.brokenRemote) Samples.refused
       (Return (Some "127.0.0.1:8008")))
  = Gateway.start
      (Samples.site Samples.portOnly (Return Samples.localSchema)
         (Return Samples.remoteSchema) Samples.refused
         (Return (Some "127.0.0.1:8008"))).
Proof.
  apply (unconfigured_remote_is_not_consulted string (list (string * string))
           (Samples.site Samples.portOnly (Return Samples.localSchema)
              (Return Samples.remoteSchema) Samples.refused
              (Return (Some "127.0.0.1:8008")))
           (λ value, [value]) (λ _, Throw Samples.brokenRemote)).
  reflexivity.
Defined.

(** X15: the start reports the first step that fails. A failure of the
    local packages ends it with that error; with the local packages in
    place, a failure of the remote packages ends it with that error,
    before the monolith is looked at. The exit code is 1. *)
Theorem first_failure_is_reported :
  ∀ (Resolver RawSchema : Type) (w : Gateway.World Resolver RawSchema)
    (e : JSError),
    (Gateway.collectLocalExtensions w = Throw e →
       Gateway.start w = Gateway.Exited 1 e)
    ∧ (∀ local value,
         Gateway.collectLocalExtensions w = Return local →
         Gateway.env w !! "IO_PACKAGES" = Some value →
         Gateway.prepareRemoteExtensionSchemas w (Gateway.asArray w value)
         = Throw e →
         Gateway.start w = Gateway.Exited 1 e).
Proof.
  intros Resolver RawSchema w e.
  unfold Gateway.start, Gateway.main, Gateway.composedSchema,
    Gateway.collectSchemas.
  split.
  - intros Hlocal. by rewrite Hlocal.
  - intros local value Hlocal Hset Hremote.
    rewrite Hlocal. simpl. rewrite Hset. simpl. by rewrite Hremote.
Qed.

Lemma first_failure_is_reported_witness :
  Gateway.start
    (Samples.site Samples.everything (Throw Samples.brokenPackage)
       (Return Samples.remoteSchema) Samples.refused
       (Return (Some "127.0.0.1:8008")))
  = Gateway.Exited 1 Samples.brokenPackage
  ∧ Gateway.start
      (Samples.site Samples.everything (Return Samples.localSchema)
         (Throw Samples.brokenRemote) Samples.refused
         (Return (Some "127.0.0.1:8008")))
    = Gateway.Exited 1 Samples.brokenRemote.
Proof.
  split.
  - apply (proj1 (first_failure_is_reported string (list (string * string))
                    (Samples.site Samples.everything
                       (Throw Samples.brokenPackage)
                       (Return Samples.remoteSchema) Samples.refused
                       (Return (Some "127.0.0.1:8008")))
                    Samples.brokenPackage)).
    reflexivity.
  - apply (proj2 (first_failure_is_reported string (list (string * string))
                    (Samples.site Samples.everything
                       (Return Samples.localSchema)
                       (Throw Samples.brokenRemote) Samples.refused
                       (Return (Some "127.0.0.1:8008")))
                    Samples.brokenRemote)
             Samples.localSchema "promotions"); reflexivity.
Defined.

(** X16: once the schema is composed, a listener bound to a pipe or a
    socket instead of a network address ends the start with the
    assertion error [Unexpected binding to pipe/socket], and a listener
    that fails ends it with its own error; the exit code is 1. *)
Theorem listener_failures :
  ∀ (Resolver RawSchema : Type) (w : Gateway.World Resolver RawSchema)
    (schema : gmap (string * string) Resolver),
    Gateway.composedSchema w = Return schema →
    (Gateway.listen w schema (Gateway.env w !! "PORT") = Return None →
       Gateway.start w
       = Gateway.Exited 1
           (AssertionError "Unexpected binding to pipe/socket"))
    ∧ (∀ e, Gateway.listen w schema (Gateway.env w !! "PORT") = Throw e →
            Gateway.start w = Gateway.Exited 1 e).
Proof.
  intros Resolver RawSchema w schema Hschema.
  unfold Gateway.start, Gateway.main. rewrite Hschema. simpl.
  split.
  - intros Hpipe. by rewrite Hpipe.
  - intros e Hfailed. by rewrite Hfailed.
Qed.

Lemma listener_failures_witness :
  Gateway.start
    (Samples.site Samples.portOnly (Return Samples.localSchema)
       (Return Samples.remoteSchema) Samples.refused (Return None))
  = Gateway.Exited 1 (AssertionError "Unexpected binding to pipe/socket").
Proof.
  apply (proj1 (listener_failures string (list (string * string))
                  (Samples.site Samples.portOnly (Return Samples.localSchema)
                     (Return Samples.remoteSchema) Samples.refused
                     (Return None))
                  (Samples.libraryMerge [Samples.localSchema]) eq_refl)).
  reflexivity.
Defined.

(** X17: the gateway ends up serving a schema at an address exactly
    when that schema is the composed one and the listener is bound to a
    network address, the address being that one behind [http://]. When
    it exits instead, the code is 1 and the error is the one [main]
    threw. *)
Theorem start_outcomes :
  ∀ (Resolver RawSchema : Type) (w : Gateway.World Resolver RawSchema),
    (∀ schema address,
       Gateway.start w = Gateway.Listening schema address
       ↔ Gateway.composedSchema w = Return schema
         ∧ ∃ bound,
             Gateway.listen w schema (Gateway.env w !! "PORT")
             = Return (Some bound)
             ∧ address = "http://" +:+ bound)
    ∧ (∀ code e,
         Gateway.start w = Gateway.Exited code e
         ↔ code = 1 ∧ Gateway.main w = Throw e).
Proof.
  intros Resolver RawSchema w.
  unfold Gateway.start, Gateway.main. split.
  - intros schema address.
    destruct (Gateway.composedSchema w) as [composed|failure]; simpl.
    + destruct (Gateway.listen w composed (Gateway.env w !! "PORT"))
        as [[bound|]|failure] eqn:Hlisten; simpl.
      * split.
        -- intros [= <- <-]. split; [done |]. exists bound. by rewrite Hlisten.
        -- intros [[= <-] (bound' & Hbound & ->)].
           rewrite Hlisten in Hbound. by simplify_eq.
      * split; [done |].
        intros [[= <-] (bound' & Hbound & _)].
        rewrite Hlisten in Hbound. discriminate.
      * split; [done |].
        intros [[= <-] (bound' & Hbound & _)].
        rewrite Hlisten in Hbound. discriminate.
    + split; [done | by intros [? _]].
  - intros code e.
    destruct (Gateway.composedSchema w) as [composed|failure]; simpl.
    + destruct (Gateway.listen w composed (Gateway.env w !! "PORT"))
        as [[bound|]|failure]; simpl;
        (split; [by intros [= <- <-] | by intros [-> [= <-]]]).
    + split; [by intros [= <- <-] | by intros [-> [= <-]]].
Qed.

(** X18: the list handed to [mergeSchemas] starts with the local schema
    and has one more schema for each of [IO_PACKAGES] and
    [LEGACY_GRAPHQL_URL] that is set: between one and three schemas. *)
Theorem collectSchemas_shape :
  ∀ (Resolver RawSchema : Type) (w : Gateway.World Resolver RawSchema)
    (schemas : list (gmap (string * string) Resolver)),
    Gateway.collectSchemas w = Return schemas →
    (∃ local, Gateway.collectLocalExtensions w = Return local
              ∧ head schemas = Some local)
    ∧ length schemas
      = (1 + match Gateway.env w !! "IO_PACKAGES" with
             | Some _ => 1
             | None => 0
             end
           + match Gateway.env w !! "LEGACY_GRAPHQL_URL" with
             | Some _ => 1
             | None => 0
             end)%nat.
Proof.
  intros Resolver RawSchema w schemas.
  unfold Gateway.collectSchemas.
  destruct (Gateway.collectLocalExtensions w) as [local|failure];
    [| discriminate].
  simpl.
  destruct (Gateway.env w !! "IO_PACKAGES") as [value|]; simpl.
  - destruct (Gateway.prepareRemoteExtensionSchemas w _) as [remote|failure];
      [| discriminate].
    simpl.
    destruct (Gateway.env w !! "LEGACY_GRAPHQL_URL") as [url|]; simpl.
    + destruct (Gateway.prepareFallbackSchema w url) as [legacy|failure];
        [| discriminate].
      intros [= <-]. eauto.
    + intros [= <-]. eauto.
  - destruct (Gateway.env w !! "LEGACY_GRAPHQL_URL") as [url|]; simpl.
    + destruct (Gateway.prepareFallbackSchema w url) as [legacy|failure];
        [| discriminate].
      intros [= <-]. eauto.
    + intros [= <-]. eauto.
Qed.

Lemma collectSchemas_shape_witness :
  (∃ local,
     Gateway.collectLocalExtensions Samples.reachable = Return local
     ∧ head [Samples.localSchema; Samples.remoteSchema;
             Samples.passThrough Samples.monolithFields
               "http://magento.test/graphql"]
       = Some local)
  ∧ length [Samples.localSchema; Samples.remoteSchema;
            Samples.passThrough Samples.monolithFields
              "http://magento.test/graphql"]
    = 3.
Proof.
  apply (collectSchemas_shape string (list (string * string))
           Samples.reachable
           [Samples.localSchema; Samples.remoteSchema;
            Samples.passThrough Samples.monolithFields
              "http://magento.test/graphql"]).
  reflexivity.
Defined.

(** ** What is printed *)

Lemma string_app_nil_r (a : string) : a +:+ EmptyString = a.
Proof.
  induction a as [|ch a IH]; [reflexivity |].
  change (String ch (a +:+ EmptyString) = String ch a). by rewrite IH.
Qed.

Lemma includes_refl (text : string) : Gateway.includes text text.
Proof. exists EmptyString, EmptyString. by rewrite string_app_nil_r. Qed.

Lemma includes_app_l (front back needle : string) :
  Gateway.includes front needle → Gateway.includes (front +:+ back) needle.
Proof.
  intros (before & after & ->). exists before, (after +:+ back).
  by rewrite !string_app_assoc.
Qed.

Lemma includes_app_r (front back needle : string) :
  Gateway.includes back needle → Gateway.includes (front +:+ back) needle.
Proof.
  intros (before & after & ->). exists (front +:+ before), after.
  by rewrite !string_app_assoc.
Qed.

(** Every item of a joined array occurs in the text. *)
Lemma join_includes {A : Type} (separator : string) (line : A → string)
    (items : list A) (item : A) :
  item ∈ items →
  Gateway.includes (Startup.join separator (map line items)) (line item).
Proof.
  induction items as [|first rest IH]; intros Hin.
  - by apply elem_of_nil in Hin.
  - destruct rest as [|second rest].
    + apply list_elem_of_singleton in Hin as ->. apply includes_refl.
    + apply elem_of_cons in Hin as [-> | Hrest].
      * apply includes_app_l, includes_refl.
      * apply includes_app_r, includes_app_r, IH, Hrest.
Qed.

(** X19: the line printed for the local packages names each of them,
    behind a dash, and so does the line printed for the remote
    packages. *)
Theorem every_package_is_printed :
  (∀ (mergedNames : list string) (name : string),
     name ∈ mergedNames →
     Gateway.includes (Startup.localPackagesLog mergedNames)
       ("  - " +:+ name))
  ∧ (∀ (SchemaDef : Type) (ioSchemaDefs : list (Startup.IOSchemaDef SchemaDef))
       (io : Startup.IOSchemaDef SchemaDef),
       io ∈ ioSchemaDefs →
       Gateway.includes (Startup.remotePackagesLog ioSchemaDefs)
         ("  - " +:+ Startup.pkg io)).
Proof.
  split.
  - intros mergedNames name Hin. unfold Startup.localPackagesLog.
    do 4 apply includes_app_r.
    by apply (join_includes Startup.newline (λ n, "  - " +:+ n)).
  - intros SchemaDef ioSchemaDefs io Hin. unfold Startup.remotePackagesLog.
    do 4 apply includes_app_r.
    by apply (join_includes Startup.newline (λ s, "  - " +:+ Startup.pkg s)).
Qed.

Lemma every_package_is_printed_witness :
  Gateway.includes (Startup.localPackagesLog Samples.localNames)
    "  - legacy-proxy"
  ∧ Gateway.includes
      (Startup.remotePackagesLog [Samples.promotions; Samples.reviews])
      "  - reviews".
Proof.
  split.
  - apply (proj1 every_package_is_printed Samples.localNames "legacy-proxy").
    apply (bool_decide_unpack _). vm_compute. reflexivity.
  - apply (proj2 every_package_is_printed string
             [Samples.promotions; Samples.reviews] Samples.reviews).
    apply list_elem_of_further, list_elem_of_here.
Defined.
